(** * The inference bridge of [python/helper.py]

    A shallow embedding of the read-parse-respond loop of
    [python/helper.py] and the properties of its wire protocol.

    The program is a single module-level [while True] loop.  Each iteration
    reads one line from [sys.stdin], decodes it with [json.loads], looks up
    four fields, asks jedi for the names at the given position and writes one
    line to [sys.stdout], which it flushes.  A blanket [except Exception]
    around the whole iteration turns every failure into an
    [{"error": ...}] line.

    What the embedding keeps from the source:
    - the module globals ([line], [request], [source], ...) as an explicit
      store that is threaded from one iteration to the next; every read of a
      name goes through the store and raises [NameError] when the name is
      unbound, as in Python;
    - exceptions as values, with the [try] body and the handler as two
      separate computations, so that a failure inside the handler is not
      caught again;
    - [sys.stdout] as a trace of [write] and [flush] calls, each of which the
      environment may make fail;
    - [sys.stdin.readline()] as an answer of the environment: a string (the
      empty string at end of stream) or an exception.

    The two libraries the program calls, [json] and [jedi], are not part of
    the repository.  They are interfaces here ([Json], [Jedi]); the theorems
    hold for every implementation and name the library facts they rely on. *)

From Stdlib Require Import String Ascii List ZArith Bool Lia DecimalString.
Import ListNotations.
Local Open Scope string_scope.
Local Open Scope list_scope.

(** ** Python values that travel through JSON *)

(** The values [json.loads] can build and [json.dumps] can print.  A [dict]
    is an association list in insertion order, which is the order
    [json.dumps] prints; [PyFloat m e] is the float of value [m * 10 ^ e] (every
    finite binary64 number has this form). *)
#[local] Unset Elimination Schemes.
Inductive value : Type :=
| PyNone
| PyBool (b : bool)
| PyInt (n : Z)
| PyFloat (m e : Z)
| PyStr (s : string)
| PyList (l : list value)
| PyDict (d : list (string * value)).
#[local] Set Elimination Schemes.

(** Induction on values, through the lists and the dicts they hold. *)
Section ValueInduction.
Variable P : value -> Prop.
Hypothesis P_None : P PyNone.
Hypothesis P_Bool : forall b, P (PyBool b).
Hypothesis P_Int : forall n, P (PyInt n).
Hypothesis P_Float : forall m e, P (PyFloat m e).
Hypothesis P_Str : forall s, P (PyStr s).
Hypothesis P_List : forall l, Forall P l -> P (PyList l).
Hypothesis P_Dict : forall d, Forall (fun kv => P (snd kv)) d -> P (PyDict d).

Fixpoint value_ind (v : value) : P v :=
  match v with
  | PyNone => P_None
  | PyBool b => P_Bool b
  | PyInt n => P_Int n
  | PyFloat m e => P_Float m e
  | PyStr s => P_Str s
  | PyList l =>
      P_List l
        ((fix all (l : list value) : Forall P l :=
            match l with
            | [] => Forall_nil P
            | x :: l' => Forall_cons x (value_ind x) (all l')
            end) l)
  | PyDict d =>
      P_Dict d
        ((fix all (d : list (string * value)) : Forall (fun kv => P (snd kv)) d :=
            match d with
            | [] => Forall_nil _
            | kv :: d' => Forall_cons kv (value_ind (snd kv)) (all d')
            end) d)
  end.
End ValueInduction.

(** Instances of [Exception], the class the handler of the program names:
    the class name and the text [str(e)] gives.  [KeyboardInterrupt] and
    [SystemExit], which are not instances of [Exception], are signals to the
    process and not failures of a request; they are left out. *)
Record PyException : Type := mkExc { exc_class : string; exc_str : string }.

Definition KeyError (key : string) : PyException :=
  mkExc "KeyError" ("'" ++ key ++ "'").
Definition TypeError (msg : string) : PyException := mkExc "TypeError" msg.
Definition NameError (name : string) : PyException :=
  mkExc "NameError" ("name '" ++ name ++ "' is not defined").
Definition IndexError (msg : string) : PyException := mkExc "IndexError" msg.

(** The outcome of evaluating an expression: a value or a raised exception. *)
Inductive res (A : Type) : Type :=
| Ok (a : A)
| Raised (e : PyException).
Arguments Ok {A} a.
Arguments Raised {A} e.

(** [type(v).__name__] *)
Definition type_name (v : value) : string :=
  match v with
  | PyNone => "NoneType"
  | PyBool _ => "bool"
  | PyInt _ => "int"
  | PyFloat _ _ => "float"
  | PyStr _ => "str"
  | PyList _ => "list"
  | PyDict _ => "dict"
  end.

(** [bool(v)], the test behind [if v] and [not v]. *)
Definition truthy (v : value) : bool :=
  match v with
  | PyNone => false
  | PyBool b => b
  | PyInt n => negb (n =? 0)%Z
  | PyFloat m _ => negb (m =? 0)%Z
  | PyStr s => negb (s =? "")
  | PyList l => match l with [] => false | _ :: _ => true end
  | PyDict d => match d with [] => false | _ :: _ => true end
  end.

Fixpoint dict_get (d : list (string * value)) (key : string) : option value :=
  match d with
  | [] => None
  | (k, v) :: d' => if k =? key then Some v else dict_get d' key
  end.

(** [v[key]] for a string literal [key].  The [KeyError] text is [repr(key)],
    which for the keys of this program is the key between single quotes. *)
Definition getitem (v : value) (key : string) : res value :=
  match v with
  | PyDict d =>
      match dict_get d key with
      | Some x => Ok x
      | None => Raised (KeyError key)
      end
  | PyList _ => Raised (TypeError "list indices must be integers or slices, not str")
  | PyStr _ => Raised (TypeError "string indices must be integers, not 'str'")
  | _ => Raised (TypeError ("'" ++ type_name v ++ "' object is not subscriptable"))
  end.

(** [l[0]] on a Python list. *)
Definition getitem0 {A : Type} (l : list A) : res A :=
  match l with
  | x :: _ => Ok x
  | [] => Raised (IndexError "list index out of range")
  end.

Definition newline : string := String (ascii_of_nat 10) EmptyString.

(** ** The two libraries *)

(** [json.loads] on a [str] and [json.dumps] with its default arguments. *)
Class Json : Type := {
  json_loads : string -> res value;
  json_dumps : value -> string
}.

(** jedi: [jedi.Script(source, path=path)], [script.infer(line, column)] and
    the five attributes read from a name.  [Script] objects and names are
    opaque; every call may raise. *)
Class Jedi : Type := {
  Script : Type;
  Name : Type;
  jedi_Script : value -> value -> res Script;
  infer : Script -> value -> value -> res (list Name);
  name : Name -> res value;
  full_name : Name -> res value;
  type : Name -> res value;
  docstring : Name -> res value;
  module_name : Name -> res value
}.

(** ** The process and its environment *)

(** What [sys.stdout] has done, in order: the calls that returned.  A call
    that raises leaves no event. *)
Inductive Event : Type :=
| Wrote (s : string)
| Flushed.

(** Control after one pass through the loop body. *)
Inductive Ctl : Type := Continue | Break.

(** Where the process stands after a sequence of reads: still in the loop and
    about to read again, finished with exit status 0, or killed by an
    exception that nothing caught. *)
Inductive Status : Type :=
| Running
| Exited
| Crashed (e : PyException).

(** The status the interpreter derives from the way the program ended: 0
    when the module has run to its end, 1 when an exception was left
    uncaught.  It is not always the status the process reports: when the
    interpreter's own last flush of a standard stream fails while it shuts
    down, as on a pipe that stays broken, the process exits with 120
    whatever the program did.  That last flush is the interpreter's, not
    the program's, and is not modelled. *)
Definition exit_status (s : Status) : option Z :=
  match s with
  | Running => None
  | Exited => Some 0%Z
  | Crashed _ => Some 1%Z
  end.

Section Bridge.
Context {J : Json} {E : Jedi}.

(** The module globals; [None] is an unbound name. *)
Record Globals : Type := mkGlobals {
  g_line : option value;
  g_request : option value;
  g_source : option value;
  g_path : option value;
  g_column : option value;
  g_script : option Script;
  g_inference : option (list Name);
  g_result : option value
}.

Definition no_globals : Globals :=
  mkGlobals None None None None None None None None.

(** The state of the world: the globals, the failures the environment has
    in store for the coming operations on [sys.stdout] ([Some e]: the next
    operation raises [e]; an exhausted list: no more failures), what
    [sys.stdout] has received.  The disk is not part of it: the program
    itself opens no file, and what jedi reads and writes there (the file at
    [path], its caches) stays inside the engine, which is an interface
    here. *)
Record World : Type := mkWorld {
  globals : Globals;
  faults : list (option PyException);
  trace : list Event
}.

Definition start (fs : list (option PyException)) : World :=
  mkWorld no_globals fs [].

(** *** State and exception monad *)

Definition M (A : Type) : Type := World -> res A * World.

Definition ret {A} (a : A) : M A := fun w => (Ok a, w).

Definition bind {A B} (m : M A) (k : A -> M B) : M B :=
  fun w =>
    match m w with
    | (Ok a, w') => k a w'
    | (Raised e, w') => (Raised e, w')
    end.

Definition lift {A} (r : res A) : M A := fun w => (r, w).

(** [try: body except Exception as e: handler(e)] *)
Definition try_except {A} (body : M A) (handler : PyException -> M A) : M A :=
  fun w =>
    match body w with
    | (Ok a, w') => (Ok a, w')
    | (Raised e, w') => handler e w'
    end.

Definition with_globals (f : Globals -> Globals) : M unit :=
  fun w => (Ok tt, mkWorld (f (globals w)) (faults w) (trace w)).

Definition load {A} (var : string) (proj : Globals -> option A) : M A :=
  fun w =>
    match proj (globals w) with
    | Some a => (Ok a, w)
    | None => (Raised (NameError var), w)
    end.

Definition set_line v := with_globals (fun g =>
  mkGlobals (Some v) (g_request g) (g_source g) (g_path g) (g_column g)
            (g_script g) (g_inference g) (g_result g)).
Definition set_request v := with_globals (fun g =>
  mkGlobals (g_line g) (Some v) (g_source g) (g_path g) (g_column g)
            (g_script g) (g_inference g) (g_result g)).
Definition set_source v := with_globals (fun g =>
  mkGlobals (g_line g) (g_request g) (Some v) (g_path g) (g_column g)
            (g_script g) (g_inference g) (g_result g)).
Definition set_path v := with_globals (fun g =>
  mkGlobals (g_line g) (g_request g) (g_source g) (Some v) (g_column g)
            (g_script g) (g_inference g) (g_result g)).
Definition set_column v := with_globals (fun g =>
  mkGlobals (g_line g) (g_request g) (g_source g) (g_path g) (Some v)
            (g_script g) (g_inference g) (g_result g)).
Definition set_script v := with_globals (fun g =>
  mkGlobals (g_line g) (g_request g) (g_source g) (g_path g) (g_column g)
            (Some v) (g_inference g) (g_result g)).
Definition set_inference v := with_globals (fun g =>
  mkGlobals (g_line g) (g_request g) (g_source g) (g_path g) (g_column g)
            (g_script g) (Some v) (g_result g)).
Definition set_result v := with_globals (fun g =>
  mkGlobals (g_line g) (g_request g) (g_source g) (g_path g) (g_column g)
            (g_script g) (g_inference g) (Some v)).

Definition get_line := load "line" g_line.
Definition get_request := load "request" g_request.
Definition get_source := load "source" g_source.
Definition get_path := load "path" g_path.
Definition get_column := load "column" g_column.
Definition get_script := load "script" g_script.
Definition get_inference := load "inference" g_inference.
Definition get_result := load "result" g_result.

(** One operation on [sys.stdout]: it raises if the environment says so and
    is recorded in the trace otherwise. *)
Definition stdout_op (ev : Event) : M unit :=
  fun w =>
    match faults w with
    | Some e :: fs => (Raised e, mkWorld (globals w) fs (trace w))
    | None :: fs => (Ok tt, mkWorld (globals w) fs (trace w ++ [ev]))
    | [] => (Ok tt, mkWorld (globals w) [] (trace w ++ [ev]))
    end.

Definition stdout_write (s : string) : M unit := stdout_op (Wrote s).
Definition stdout_flush : M unit := stdout_op Flushed.

(** [json.loads(v)]: the library on a [str], a [TypeError] otherwise. *)
Definition loads (v : value) : res value :=
  match v with
  | PyStr s => json_loads s
  | _ => Raised (TypeError ("the JSON object must be str, bytes or bytearray, not "
                            ++ type_name v))
  end.

(** [{'error': str(e)}] *)
Definition error_object (e : PyException) : value :=
  PyDict [("error", PyStr (exc_str e))].

Notation "x <- m ;; k" := (bind m (fun x => k))
  (at level 61, m at next level, right associativity).
Notation "m ;;; k" := (bind m (fun _ => k))
  (at level 61, right associativity).

(** *** The program *)

(** [inference[0].attr], as it is evaluated inside the dict display. *)
Definition first_attr (attr : Name -> res value) : M value :=
  inference <- get_inference ;;
  candidate <- lift (getitem0 inference) ;;
  lift (attr candidate).

(** The [try] suite of one iteration.  [rd] is what
    [sys.stdin.readline()] answers.  [if inference] on a list is the test
    that it is not empty. *)
Definition body (rd : res string) : M Ctl :=
  s <- lift rd ;;
  set_line (PyStr s) ;;;
  line <- get_line ;;
  if negb (truthy line) then ret Break else
  line <- get_line ;;
  request <- lift (loads line) ;;
  set_request request ;;;
  request <- get_request ;;
  source <- lift (getitem request "source") ;;
  set_source source ;;;
  request <- get_request ;;
  path <- lift (getitem request "path") ;;
  set_path path ;;;
  request <- get_request ;;
  line <- lift (getitem request "line") ;;
  set_line line ;;;
  request <- get_request ;;
  column <- lift (getitem request "column") ;;
  set_column column ;;;
  source <- get_source ;;
  path <- get_path ;;
  script <- lift (jedi_Script source path) ;;
  set_script script ;;;
  script <- get_script ;;
  line <- get_line ;;
  column <- get_column ;;
  inference <- lift (infer script line column) ;;
  set_inference inference ;;;
  inference <- get_inference ;;
  (match inference with
   | _ :: _ =>
       v_name <- first_attr name ;;
       v_full_name <- first_attr full_name ;;
       v_type <- first_attr type ;;
       v_docstring <- first_attr docstring ;;
       v_module_name <- first_attr module_name ;;
       set_result (PyDict [("name", v_name);
                           ("full_name", v_full_name);
                           ("type", v_type);
                           ("docstring", v_docstring);
                           ("module_name", v_module_name)])
   | [] => set_result PyNone
   end) ;;;
  result <- get_result ;;
  stdout_write (json_dumps result ++ newline) ;;;
  stdout_flush ;;;
  ret Continue.

(** The [except Exception as e] suite.  Python unbinds [e] when the suite
    is left, so [e] is a bound variable here and not a global. *)
Definition handler (e : PyException) : M Ctl :=
  stdout_write (json_dumps (error_object e) ++ newline) ;;;
  stdout_flush ;;;
  ret Continue.

Definition iteration (rd : res string) : M Ctl :=
  try_except (body rd) handler.

(** [while True], run against the answers [reads] of [sys.stdin].  When
    the answers are used up the process is blocked in [readline]. *)
Fixpoint loop (reads : list (res string)) (w : World) : Status * World :=
  match reads with
  | [] => (Running, w)
  | rd :: rest =>
      match iteration rd w with
      | (Ok Continue, w') => loop rest w'
      | (Ok Break, w') => (Exited, w')
      | (Raised e, w') => (Crashed e, w')
      end
  end.

(** *** The request-to-response function the loop is compared with *)

Definition and_then {A B} (r : res A) (k : A -> res B) : res B :=
  match r with
  | Ok a => k a
  | Raised e => Raised e
  end.

Definition describe (candidate : Name) : res value :=
  and_then (name candidate) (fun v_name =>
  and_then (full_name candidate) (fun v_full_name =>
  and_then (type candidate) (fun v_type =>
  and_then (docstring candidate) (fun v_docstring =>
  and_then (module_name candidate) (fun v_module_name =>
  Ok (PyDict [("name", v_name);
              ("full_name", v_full_name);
              ("type", v_type);
              ("docstring", v_docstring);
              ("module_name", v_module_name)])))))).

(** What one request asks the bridge to print, with no store and no
    streams: [Ok None] at end of stream, [Ok (Some v)] for the object to
    print, [Raised e] when handling the request fails. *)
Definition answer (rd : res string) : res (option value) :=
  and_then rd (fun s =>
  if s =? "" then Ok None else
  and_then (json_loads s) (fun request =>
  and_then (getitem request "source") (fun source =>
  and_then (getitem request "path") (fun path =>
  and_then (getitem request "line") (fun line =>
  and_then (getitem request "column") (fun column =>
  and_then (jedi_Script source path) (fun script =>
  and_then (infer script line column) (fun inference =>
  match inference with
  | candidate :: _ =>
      and_then (describe candidate) (fun v => Ok (Some v))
  | [] => Ok (Some PyNone)
  end)))))))).

(** The text of the response line for one read that is not the end of the
    stream, newline included. *)
Definition response_line (rd : res string) : string :=
  match answer rd with
  | Ok (Some v) => json_dumps v ++ newline
  | Ok None => ""
  | Raised e => json_dumps (error_object e) ++ newline
  end.

(** What one iteration adds to the trace of [w]. *)
Definition emitted (rd : res string) (w : World) : list Event :=
  skipn (length (trace w)) (trace (snd (iteration rd w))).

(** What a run of the loop adds to the trace of [w]. *)
Definition emitted_by_loop (reads : list (res string)) (w : World) : list Event :=
  skipn (length (trace w)) (trace (snd (loop reads w))).

(** A read that is the end of the stream. *)
Definition is_eof (rd : res string) : bool :=
  match rd with
  | Ok s => s =? ""
  | Raised _ => false
  end.

(** [w] with another store. *)
Definition put_globals (g : Globals) (w : World) : World :=
  mkWorld g (faults w) (trace w).

(** *** The effect of an iteration on the streams alone

    The same steps as [stdout_op], [handler] and [loop], on the schedule of
    failures and the events only: what is left of the schedule and what
    was added to the trace. *)
Definition Streams (A : Type) : Type :=
  (res A * list (option PyException) * list Event)%type.

Definition out_op (ev : Event) (fs : list (option PyException)) : Streams unit :=
  match fs with
  | Some e :: fs' => (Raised e, fs', [])
  | None :: fs' => (Ok tt, fs', [ev])
  | [] => (Ok tt, [], [ev])
  end.

(** [write(text)] and then [flush()]. *)
Definition out_line (text : string) (fs : list (option PyException)) : Streams Ctl :=
  match out_op (Wrote text) fs with
  | (Ok _, fs1, ev1) =>
      match out_op Flushed fs1 with
      | (Ok _, fs2, ev2) => (Ok Continue, fs2, ev1 ++ ev2)
      | (Raised e, fs2, ev2) => (Raised e, fs2, ev1 ++ ev2)
      end
  | (Raised e, fs1, ev1) => (Raised e, fs1, ev1)
  end.

Definition error_line (e : PyException) : string :=
  json_dumps (error_object e) ++ newline.

Definition stream_effect (a : res (option value)) (fs : list (option PyException))
  : Streams Ctl :=
  match a with
  | Ok None => (Ok Break, fs, [])
  | Ok (Some v) =>
      match out_line (json_dumps v ++ newline) fs with
      | (Ok c, fs1, ev1) => (Ok c, fs1, ev1)
      | (Raised e, fs1, ev1) =>
          match out_line (error_line e) fs1 with
          | (r, fs2, ev2) => (r, fs2, ev1 ++ ev2)
          end
      end
  | Raised e => out_line (error_line e) fs
  end.

Fixpoint run_streams (reads : list (res string)) (fs : list (option PyException))
  : Status * list (option PyException) * list Event :=
  match reads with
  | [] => (Running, fs, [])
  | rd :: rest =>
      match stream_effect (answer rd) fs with
      | (Ok Continue, fs1, ev1) =>
          match run_streams rest fs1 with
          | (st, fs2, ev2) => (st, fs2, ev1 ++ ev2)
          end
      | (Ok Break, fs1, ev1) => (Exited, fs1, ev1)
      | (Raised e, fs1, ev1) => (Crashed e, fs1, ev1)
      end
  end.

(** The two ways an input line is malformed: it is not JSON, or it is a
    JSON object that lacks one of the four fields of a request. *)
Definition required_fields : list string := ["source"; "path"; "line"; "column"].

Definition missing_field (request : value) : Prop :=
  exists d key,
    request = PyDict d /\ In key required_fields /\ dict_get d key = None.

Definition malformed (line : string) : Prop :=
  line <> "" /\
  ((exists e, json_loads line = Raised e) \/
   (exists request, json_loads line = Ok request /\ missing_field request)).
End Bridge.

Fixpoint count_newlines (s : string) : nat :=
  match s with
  | EmptyString => 0
  | String c s' => (if Ascii.eqb c (ascii_of_nat 10) then 1 else 0) + count_newlines s'
  end.

(** The text [sys.stdout] has received. *)
Fixpoint written (tr : list Event) : string :=
  match tr with
  | [] => ""
  | Wrote s :: tr' => s ++ written tr'
  | Flushed :: tr' => written tr'
  end.

(** The text that is still in the buffer of [sys.stdout]: what was written
    after the last flush. *)
Fixpoint pending (acc : string) (tr : list Event) : string :=
  match tr with
  | [] => acc
  | Wrote s :: tr' => pending (acc ++ s) tr'
  | Flushed :: tr' => pending "" tr'
  end.

(** *** Facts about [json] the bridge relies on *)

(** [json.dumps] with its default arguments prints on one line. *)
Definition single_line_dumps (J : Json) : Prop :=
  forall v, count_newlines (json_dumps v) = 0.

(** The exceptions of [json.loads] carry a message. *)
Definition decode_errors_have_text (J : Json) : Prop :=
  forall s e, json_loads s = Raised e -> exc_str e <> "".

(** [json.dumps(None)] *)
Definition dumps_None_is_null (J : Json) : Prop :=
  json_dumps PyNone = "null".

(** ** A small JSON codec

    An implementation of the [Json] interface that computes, used to run the
    bridge on concrete input.  It covers text with code points below 256
    (one per character; a [\u] escape above that is refused), integers and
    decimal numbers with their exact value, and reports errors in the format
    of CPython's decoder: a message, then line, column and offset. *)
Module MiniJson.
#[local] Open Scope nat_scope.

Definition dquote : ascii := ascii_of_nat 34.
Definition backslash : ascii := ascii_of_nat 92.

Definition dec_nat (n : nat) : string :=
  NilZero.string_of_uint (Nat.to_uint n).
Definition dec_Z (z : Z) : string :=
  NilZero.string_of_int (Z.to_int z).

Definition hex_digit (n : nat) : ascii :=
  ascii_of_nat (if n <? 10 then 48 + n else 87 + n).

(** One character of a string, as [json.dumps] prints it with
    [ensure_ascii=True]. *)
Definition escape_char (c : ascii) : string :=
  let n := nat_of_ascii c in
  if n =? 34 then String backslash (String c "")
  else if n =? 92 then String backslash (String c "")
  else if n =? 10 then "\n"
  else if n =? 13 then "\r"
  else if n =? 9 then "\t"
  else if n =? 8 then "\b"
  else if n =? 12 then "\f"
  else if (32 <=? n) && (n <=? 126) then String c ""
  else "\u00" ++ String (hex_digit (n / 16)) (String (hex_digit (n mod 16)) "").

Fixpoint escape (s : string) : string :=
  match s with
  | EmptyString => ""
  | String c s' => escape_char c ++ escape s'
  end.

Definition quote (s : string) : string :=
  String dquote (escape s ++ String dquote "").

Fixpoint join (sep : string) (l : list string) : string :=
  match l with
  | [] => ""
  | [x] => x
  | x :: l' => x ++ sep ++ join sep l'
  end.

Fixpoint dumps (v : value) : string :=
  match v with
  | PyNone => "null"
  | PyBool true => "true"
  | PyBool false => "false"
  | PyInt n => dec_Z n
  | PyFloat m e => dec_Z m ++ "e" ++ dec_Z e
  | PyStr s => quote s
  | PyList l => "[" ++ join ", " (map dumps l) ++ "]"
  | PyDict d =>
      "{" ++ join ", " (map (fun kv => (quote (fst kv) ++ ": " ++ dumps (snd kv))%string) d)
          ++ "}"
  end.

(** *** Decoding *)

Inductive jerr : Type :=
| ExpectingValue
| UnterminatedString
| InvalidControl
| InvalidEscape
| InvalidUnicodeEscape
| ExpectingName
| ExpectingColon
| ExpectingComma
| ExtraData
| TooDeep.

Definition jerr_text (k : jerr) : string :=
  match k with
  | ExpectingValue => "Expecting value"
  | UnterminatedString => "Unterminated string starting at"
  | InvalidControl => "Invalid control character at"
  | InvalidEscape => "Invalid \escape"
  | InvalidUnicodeEscape => "Invalid \uXXXX escape"
  | ExpectingName => "Expecting property name enclosed in double quotes"
  | ExpectingColon => "Expecting ':' delimiter"
  | ExpectingComma => "Expecting ',' delimiter"
  | ExtraData => "Extra data"
  | TooDeep => "maximum recursion depth exceeded"
  end.

(** The line and the column of offset [pos] in [doc], both from 1. *)
Fixpoint line_col (doc : string) (pos : nat) (ln col : nat) : nat * nat :=
  match pos, doc with
  | S pos', String c doc' =>
      if nat_of_ascii c =? 10 then line_col doc' pos' (S ln) 1
      else line_col doc' pos' ln (S col)
  | _, _ => (ln, col)
  end.

Definition JSONDecodeError (k : jerr) (pos : nat) (doc : string) : PyException :=
  let (ln, col) := line_col doc pos 1 1 in
  mkExc (match k with TooDeep => "RecursionError" | _ => "JSONDecodeError" end)
        (jerr_text k ++ ": line " ++ dec_nat ln ++ " column " ++ dec_nat col
                     ++ " (char " ++ dec_nat pos ++ ")").

(** A decoding step: an error at an offset, or a result with the rest of
    the text and the offset of that rest. *)
Definition parsed (A : Type) : Type := (jerr * nat) + (A * string * nat).

Definition is_ws (c : ascii) : bool :=
  let n := nat_of_ascii c in
  (n =? 32) || (n =? 9) || (n =? 10) || (n =? 13).

Fixpoint skip_ws (s : string) (pos : nat) : string * nat :=
  match s with
  | String c s' => if is_ws c then skip_ws s' (S pos) else (s, pos)
  | EmptyString => (s, pos)
  end.

Fixpoint drop (n : nat) (s : string) : string :=
  match n, s with
  | S n', String _ s' => drop n' s'
  | _, _ => s
  end.

Definition digit_of (c : ascii) : option Z :=
  let n := nat_of_ascii c in
  if (48 <=? n) && (n <=? 57) then Some (Z.of_nat (n - 48)) else None.

Definition hex_of (c : ascii) : option nat :=
  let n := nat_of_ascii c in
  if (48 <=? n) && (n <=? 57) then Some (n - 48)
  else if (97 <=? n) && (n <=? 102) then Some (n - 87)
  else if (65 <=? n) && (n <=? 70) then Some (n - 55)
  else None.

(** The character a backslash escape stands for. *)
Definition unescape (c : ascii) : option ascii :=
  let n := nat_of_ascii c in
  if (n =? 34) || (n =? 92) || (n =? 47) then Some c
  else if n =? 98 then Some (ascii_of_nat 8)
  else if n =? 102 then Some (ascii_of_nat 12)
  else if n =? 110 then Some (ascii_of_nat 10)
  else if n =? 114 then Some (ascii_of_nat 13)
  else if n =? 116 then Some (ascii_of_nat 9)
  else None.

Definition push (c : ascii) (r : parsed string) : parsed string :=
  match r with
  | inr (s, rest, pos) => inr (String c s, rest, pos)
  | inl e => inl e
  end.

(** The body of a string, after its opening quote at offset [start]. *)
Fixpoint scan_string (start : nat) (s : string) (pos : nat) : parsed string :=
  match s with
  | EmptyString => inl (UnterminatedString, start)
  | String c s' =>
      let n := nat_of_ascii c in
      if n =? 34 then inr ("", s', S pos)
      else if n =? 92 then
        match s' with
        | EmptyString => inl (UnterminatedString, start)
        | String d s'' =>
            if nat_of_ascii d =? 117 then
              match s'' with
              | String h1 (String h2 (String h3 (String h4 rest))) =>
                  match hex_of h1, hex_of h2, hex_of h3, hex_of h4 with
                  | Some 0, Some 0, Some x, Some y =>
                      push (ascii_of_nat (16 * x + y)) (scan_string start rest (pos + 6))
                  | _, _, _, _ => inl (InvalidUnicodeEscape, pos)
                  end
              | _ => inl (InvalidUnicodeEscape, pos)
              end
            else
              match unescape d with
              | Some ch => push ch (scan_string start s'' (pos + 2))
              | None => inl (InvalidEscape, pos)
              end
        end
      else if n <? 32 then inl (InvalidControl, pos)
      else push c (scan_string start s' (S pos))
  end.

(** A run of digits: its value on top of [acc], how many there were, and
    the rest. *)
Fixpoint scan_digits (s : string) (acc : Z) (count : nat) : Z * nat * string :=
  match s with
  | String c s' =>
      match digit_of c with
      | Some d => scan_digits s' (10 * acc + d)%Z (S count)
      | None => (acc, count, s)
      end
  | EmptyString => (acc, count, s)
  end.

(** A number: an optional minus sign, an integer part without leading
    zeros, an optional fraction and an optional exponent. *)
Definition scan_number (s : string) (pos : nat) : parsed value :=
  let '(negative, s1, p1) :=
    match s with
    | String c s' => if nat_of_ascii c =? 45 then (true, s', S pos) else (false, s, pos)
    | EmptyString => (false, s, pos)
    end in
  let sign := if negative then (-1)%Z else 1%Z in
  let '(int_part, int_len, s2) :=
    match s1 with
    | String c s' => if nat_of_ascii c =? 48 then (0%Z, 1, s') else scan_digits s1 0%Z 0
    | EmptyString => (0%Z, 0, s1)
    end in
  if int_len =? 0 then inl (ExpectingValue, pos) else
  let p2 := p1 + int_len in
  let '(mant, frac_len, s3) :=
    match s2 with
    | String c s' =>
        if nat_of_ascii c =? 46 then
          match scan_digits s' int_part 0 with
          | (_, 0, _) => (int_part, 0, s2)
          | (m, k, rest) => (m, k, rest)
          end
        else (int_part, 0, s2)
    | EmptyString => (int_part, 0, s2)
    end in
  let p3 := if frac_len =? 0 then p2 else p2 + 1 + frac_len in
  let '(has_exp, expo, exp_width, s4) :=
    match s3 with
    | String c s' =>
        if (nat_of_ascii c =? 101) || (nat_of_ascii c =? 69) then
          let '(exp_neg, sign_width, s'') :=
            match s' with
            | String d t =>
                if nat_of_ascii d =? 45 then (true, 1, t)
                else if nat_of_ascii d =? 43 then (false, 1, t)
                else (false, 0, s')
            | EmptyString => (false, 0, s')
            end in
          match scan_digits s'' 0%Z 0 with
          | (_, 0, _) => (false, 0%Z, 0, s3)
          | (x, k, rest) =>
              (true, if exp_neg then (- x)%Z else x, 1 + sign_width + k, rest)
          end
        else (false, 0%Z, 0, s3)
    | EmptyString => (false, 0%Z, 0, s3)
    end in
  if (frac_len =? 0) && negb has_exp
  then inr (PyInt (sign * int_part), s4, p3)
  else inr (PyFloat (sign * mant) (expo - Z.of_nat frac_len), s4, p3 + exp_width).

(** [d[key] = v] on a dict in insertion order. *)
Fixpoint dict_set (d : list (string * value)) (key : string) (v : value)
  : list (string * value) :=
  match d with
  | [] => [(key, v)]
  | (k, x) :: d' =>
      if (k =? key)%string then (k, v) :: d' else (k, x) :: dict_set d' key v
  end.

Fixpoint scan_value (fuel : nat) (s : string) (pos : nat) : parsed value :=
  match fuel with
  | 0 => inl (TooDeep, pos)
  | S fuel' =>
      match s with
      | EmptyString => inl (ExpectingValue, pos)
      | String c s' =>
          let n := nat_of_ascii c in
          if n =? 34 then
            match scan_string pos s' (S pos) with
            | inr (str, rest, p) => inr (PyStr str, rest, p)
            | inl e => inl e
            end
          else if n =? 123 then
            let (s1, p1) := skip_ws s' (S pos) in
            match s1 with
            | String c1 s2 =>
                if nat_of_ascii c1 =? 125 then inr (PyDict [], s2, S p1)
                else scan_members fuel' s1 p1 []
            | EmptyString => inl (ExpectingName, p1)
            end
          else if n =? 91 then
            let (s1, p1) := skip_ws s' (S pos) in
            match s1 with
            | String c1 s2 =>
                if nat_of_ascii c1 =? 93 then inr (PyList [], s2, S p1)
                else scan_elements fuel' s1 p1 []
            | EmptyString => inl (ExpectingValue, p1)
            end
          else if prefix "null" s then inr (PyNone, drop 4 s, pos + 4)
          else if prefix "true" s then inr (PyBool true, drop 4 s, pos + 4)
          else if prefix "false" s then inr (PyBool false, drop 5 s, pos + 5)
          else scan_number s pos
      end
  end
with scan_elements (fuel : nat) (s : string) (pos : nat) (acc : list value)
  : parsed value :=
  match fuel with
  | 0 => inl (TooDeep, pos)
  | S fuel' =>
      match scan_value fuel' s pos with
      | inl e => inl e
      | inr (v, s1, p1) =>
          let (s2, p2) := skip_ws s1 p1 in
          match s2 with
          | String c s3 =>
              if nat_of_ascii c =? 93 then inr (PyList (rev (v :: acc)), s3, S p2)
              else if nat_of_ascii c =? 44 then
                let (s4, p4) := skip_ws s3 (S p2) in
                scan_elements fuel' s4 p4 (v :: acc)
              else inl (ExpectingComma, p2)
          | EmptyString => inl (ExpectingComma, p2)
          end
      end
  end
with scan_members (fuel : nat) (s : string) (pos : nat)
                  (acc : list (string * value)) : parsed value :=
  match fuel with
  | 0 => inl (TooDeep, pos)
  | S fuel' =>
      match s with
      | EmptyString => inl (ExpectingName, pos)
      | String c s' =>
          if nat_of_ascii c =? 34 then
            match scan_string pos s' (S pos) with
            | inl e => inl e
            | inr (key, s1, p1) =>
                let (s2, p2) := skip_ws s1 p1 in
                match s2 with
                | EmptyString => inl (ExpectingColon, p2)
                | String c2 s3 =>
                    if nat_of_ascii c2 =? 58 then
                      let (s4, p4) := skip_ws s3 (S p2) in
                      match scan_value fuel' s4 p4 with
                      | inl e => inl e
                      | inr (v, s5, p5) =>
                          let (s6, p6) := skip_ws s5 p5 in
                          match s6 with
                          | EmptyString => inl (ExpectingComma, p6)
                          | String c6 s7 =>
                              if nat_of_ascii c6 =? 125
                              then inr (PyDict (dict_set acc key v), s7, S p6)
                              else if nat_of_ascii c6 =? 44 then
                                let (s8, p8) := skip_ws s7 (S p6) in
                                scan_members fuel' s8 p8 (dict_set acc key v)
                              else inl (ExpectingComma, p6)
                          end
                      end
                    else inl (ExpectingColon, p2)
                end
            end
          else inl (ExpectingName, pos)
      end
  end.

Definition loads (doc : string) : res value :=
  let (s0, p0) := skip_ws doc 0 in
  match scan_value (2 * String.length doc + 2) s0 p0 with
  | inl (k, pos) => Raised (JSONDecodeError k pos doc)
  | inr (v, rest, p) =>
      let (rest', p') := skip_ws rest p in
      match rest' with
      | EmptyString => Ok v
      | String _ _ => Raised (JSONDecodeError ExtraData p' doc)
      end
  end.

#[export] Instance codec : Json := {| json_loads := loads; json_dumps := dumps |}.
End MiniJson.

(** ** A stand-in for jedi

    An engine that answers from a fixed table, used to run the bridge on
    concrete input.  It knows one source text,
    [import os] followed by [os.getcwd()] on the next line. *)
Module StubJedi.
Record Candidate : Type := mkCandidate {
  c_name : res value;
  c_full_name : res value;
  c_type : res value;
  c_docstring : res value;
  c_module_name : res value
}.

Definition ValueError (msg : string) : PyException := mkExc "ValueError" msg.

Definition known_source : string := "import os" ++ newline ++ "os.getcwd()".

Definition os_module : Candidate :=
  mkCandidate (Ok (PyStr "os")) (Ok (PyStr "os")) (Ok (PyStr "module"))
              (Ok (PyStr "OS routines for NT or Posix depending on what system we're on."))
              (Ok (PyStr "os")).

Definition getcwd_function : Candidate :=
  mkCandidate (Ok (PyStr "getcwd")) (Ok (PyStr "os.getcwd")) (Ok (PyStr "function"))
              (Ok (PyStr "getcwd() -> str")) (Ok (PyStr "os")).

Definition getcwd_stub : Candidate :=
  mkCandidate (Ok (PyStr "getcwd")) (Ok (PyStr "posix.getcwd")) (Ok (PyStr "function"))
              (Ok (PyStr "")) (Ok (PyStr "posix")).

(** A name whose documentation cannot be produced. *)
Definition undocumented : Candidate :=
  mkCandidate (Ok (PyStr "os")) (Ok PyNone) (Ok (PyStr "module"))
              (Raised (mkExc "OSError" "source not available")) (Ok PyNone).

Definition open_script (source path : value) : res (string * value) :=
  match source with
  | PyStr text => Ok (text, path)
  | _ => Raised (TypeError ("expected str, got " ++ type_name source))
  end.

Definition lookup (script : string * value) (line column : value)
  : res (list Candidate) :=
  match line, column with
  | PyInt l, PyInt c =>
      if ((l <? 1) || (1 + Z.of_nat (count_newlines (fst script)) <? l))%Z
      then Raised (ValueError "`line` parameter is not in a valid range.")
      else if negb (fst script =? known_source) then Ok []
      else if ((l =? 2) && (c =? 0))%Z then Ok [os_module]
      else if ((l =? 2) && (c =? 3))%Z then Ok [getcwd_function; getcwd_stub]
      else if ((l =? 1) && (c =? 7))%Z then Ok [undocumented; os_module]
      else Ok []
  | _, _ => Raised (TypeError "line and column must be integers")
  end.

#[export] Instance engine : Jedi := {|
  Script := string * value;
  Name := Candidate;
  jedi_Script := open_script;
  infer := lookup;
  name := c_name;
  full_name := c_full_name;
  type := c_type;
  docstring := c_docstring;
  module_name := c_module_name
|}.
End StubJedi.

(** ** Sample traffic *)
Module Samples.
Import MiniJson StubJedi.

(** A request as the editor side sends it: the four fields, printed by
    [json.dumps], and a newline. *)
Definition request_line (source : string) (line column : Z) : string :=
  dumps (PyDict [("source", PyStr source); ("path", PyStr "a.py");
                 ("line", PyInt line); ("column", PyInt column)]) ++ newline.

Definition hover_os : string := request_line known_source 2 0.
Definition hover_getcwd : string := request_line known_source 2 3.
Definition hover_blank : string := request_line known_source 1 0.
Definition hover_undocumented : string := request_line known_source 1 7.

(** What [json.loads] makes of [hover_getcwd]. *)
Definition getcwd_request : value :=
  PyDict [("source", PyStr known_source); ("path", PyStr "a.py");
          ("line", PyInt 2); ("column", PyInt 3)].

Definition blank_request : value :=
  PyDict [("source", PyStr known_source); ("path", PyStr "a.py");
          ("line", PyInt 1); ("column", PyInt 0)].

Definition not_json : string := "not json" ++ newline.
Definition no_source : string := "{}" ++ newline.

(** What a write to a closed pipe raises, and what [readline] raises on
    input that is not UTF-8. *)
Definition BrokenPipeError : PyException :=
  mkExc "BrokenPipeError" "[Errno 32] Broken pipe".

Definition UnicodeDecodeError : PyException :=
  mkExc "UnicodeDecodeError"
        "'utf-8' codec can't decode byte 0xff in position 0: invalid start byte".
End Samples.

(** ** Further notions for describing what the bridge does *)






Module MoreSamples.
Import MiniJson StubJedi Samples.

(** Valid JSON that is not an object. *)
Definition null_line : string := "null" ++ newline.

(** An object with [source] and [line] but neither [path] nor [column]. *)
Definition partial_request : value :=
  PyDict [("source", PyStr known_source); ("line", PyInt 2)].
Definition partial_line : string := dumps partial_request ++ newline.

(** The request of [hover_os] with its fields in another order and one
    field more. *)
Definition reordered_request : value :=
  PyDict [("column", PyInt 0); ("editor", PyStr "vscode"); ("line", PyInt 2);
          ("path", PyStr "a.py"); ("source", PyStr known_source)].
Definition reordered_line : string := dumps reordered_request ++ newline.

Definition os_request : value :=
  PyDict [("source", PyStr known_source); ("path", PyStr "a.py");
          ("line", PyInt 2); ("column", PyInt 0)].

Definition hover_out_of_range : string := request_line known_source 9 0.

End MoreSamples.

Section BridgeFacts.
Context {J : Json} {E : Jedi}.

Notation "x <- m ;; k" := (bind m (fun x => k))
  (at level 61, m at next level, right associativity).
Notation "m ;;; k" := (bind m (fun _ => k))
  (at level 61, right associativity).

Ltac unfold_body :=
  unfold body, first_attr, get_line, get_request, get_source, get_path,
    get_column, get_script, get_inference, get_result, set_line,
    set_request, set_source, set_path, set_column, set_script,
    set_inference, set_result, load, with_globals, loads, bind, lift, ret.

(** The [try] suite against [answer]: whatever the store holds on entry,
    the suite ends as [answer] says, and only the store has changed when
    it raises or breaks. *)
Lemma body_answer (rd : res string) (w : World) :
  exists g,
    body rd w =
    match answer rd with
    | Raised e => (Raised e, put_globals g w)
    | Ok None => (Ok Break, put_globals g w)
    | Ok (Some v) =>
        (stdout_write (json_dumps v ++ newline) ;;; stdout_flush ;;; ret Continue)
          (put_globals g w)
    end.
Proof.
  destruct w as [g0 fs tr].
  unfold answer, describe, and_then, put_globals. unfold_body.
  destruct rd as [s|e]; cbn; [|eexists; reflexivity].
  destruct (s =? "") eqn:Hs; cbn; [eexists; reflexivity|].
  destruct (json_loads s) as [request|e]; cbn; [|eexists; reflexivity].
  destruct (getitem request "source") as [source|e]; cbn; [|eexists; reflexivity].
  destruct (getitem request "path") as [path|e]; cbn; [|eexists; reflexivity].
  destruct (getitem request "line") as [line|e]; cbn; [|eexists; reflexivity].
  destruct (getitem request "column") as [column|e]; cbn; [|eexists; reflexivity].
  destruct (jedi_Script source path) as [script|e]; cbn; [|eexists; reflexivity].
  destruct (infer script line column) as [inference|e]; cbn; [|eexists; reflexivity].
  destruct inference as [|candidate rest]; cbn; [eexists; reflexivity|].
  destruct (name candidate); cbn; [|eexists; reflexivity].
  destruct (full_name candidate); cbn; [|eexists; reflexivity].
  destruct (type candidate); cbn; [|eexists; reflexivity].
  destruct (docstring candidate); cbn; [|eexists; reflexivity].
  destruct (module_name candidate); cbn; eexists; reflexivity.
Qed.

(** [write(text)], [flush()] and on to the next iteration, against
    [out_line]. *)
Lemma print_streams (text : string) (w : World) :
  (stdout_write text ;;; stdout_flush ;;; ret Continue) w =
  match out_line text (faults w) with
  | (r, fs, evs) => (r, mkWorld (globals w) fs (trace w ++ evs))
  end.
Proof.
  destruct w as [g fs tr].
  unfold out_line, out_op, stdout_write, stdout_flush, stdout_op, bind, ret; cbn.
  destruct fs as [|[e1|] fs]; cbn.
  - rewrite <- app_assoc. reflexivity.
  - rewrite app_nil_r. reflexivity.
  - destruct fs as [|[e2|] fs]; cbn; rewrite <- ?app_assoc; reflexivity.
Qed.

Lemma handler_streams (e : PyException) (w : World) :
  handler e w =
  match out_line (error_line e) (faults w) with
  | (r, fs, evs) => (r, mkWorld (globals w) fs (trace w ++ evs))
  end.
Proof. apply print_streams. Qed.

(** One iteration against [stream_effect]: the store on entry plays no
    part in the control result, in what is written or in what is left of
    the schedule. *)
Lemma iteration_streams (rd : res string) (w : World) :
  exists g,
    iteration rd w =
    match stream_effect (answer rd) (faults w) with
    | (r, fs, evs) => (r, mkWorld g fs (trace w ++ evs))
    end.
Proof.
  destruct (body_answer rd w) as [g Hbody].
  unfold iteration, try_except. rewrite Hbody.
  unfold stream_effect.
  destruct (answer rd) as [[v|]|e].
  - rewrite print_streams.
    unfold put_globals; cbn [globals faults trace].
    destruct (out_line (json_dumps v ++ newline) (faults w)) as [[[c|e] fs1] ev1].
    + exists g. reflexivity.
    + rewrite handler_streams; cbn [globals faults trace].
      destruct (out_line (error_line e) fs1) as [[r fs2] ev2].
      exists g. rewrite <- app_assoc. reflexivity.
  - exists g. rewrite app_nil_r. reflexivity.
  - rewrite handler_streams. unfold put_globals; cbn [globals faults trace].
    destruct (out_line (error_line e) (faults w)) as [[r fs'] evs].
    exists g. reflexivity.
Qed.

(** The loop against [run_streams]. *)
Lemma loop_streams (reads : list (res string)) :
  forall w, exists g,
    loop reads w =
    match run_streams reads (faults w) with
    | (st, fs, evs) => (st, mkWorld g fs (trace w ++ evs))
    end.
Proof.
  induction reads as [|rd rest IH]; intros w; cbn [loop run_streams].
  - exists (globals w). rewrite app_nil_r. destruct w; reflexivity.
  - destruct (iteration_streams rd w) as [g Hit]. rewrite Hit.
    destruct (stream_effect (answer rd) (faults w)) as [[[[|]|e] fs1] ev1].
    + destruct (IH (mkWorld g fs1 (trace w ++ ev1))) as [g' Hl].
      rewrite Hl; cbn [globals faults trace].
      destruct (run_streams rest fs1) as [[st fs2] ev2].
      exists g'. rewrite <- app_assoc. reflexivity.
    + exists g. reflexivity.
    + exists g. reflexivity.
Qed.

(** *** With a standard output that does not fail *)

Lemma out_line_fault_free (text : string) :
  out_line text [] = (Ok Continue, [], [Wrote text; Flushed]).
Proof. reflexivity. Qed.

Lemma answer_eof (rd : res string) :
  answer rd = Ok None <-> rd = Ok "".
Proof.
  split.
  - destruct rd as [s|e]; cbn; [|discriminate].
    destruct (String.eqb_spec s "") as [->|Hs]; [reflexivity|].
    unfold describe, and_then.
    repeat match goal with
           | |- context [match ?x with _ => _ end] => destruct x; try discriminate
           end.
  - intros ->. reflexivity.
Qed.

(** The three ways an iteration ends when [sys.stdout] works. *)
Lemma iteration_prints (rd : res string) (v : value) (w : World) :
  faults w = [] -> answer rd = Ok (Some v) ->
  exists g,
    iteration rd w =
    (Ok Continue,
     mkWorld g [] (trace w ++ [Wrote (json_dumps v ++ newline); Flushed])).
Proof.
  intros Hf Ha. destruct (iteration_streams rd w) as [g Hit].
  rewrite Ha, Hf in Hit. exists g. exact Hit.
Qed.

Lemma iteration_reports (rd : res string) (e : PyException) (w : World) :
  faults w = [] -> answer rd = Raised e ->
  exists g,
    iteration rd w =
    (Ok Continue, mkWorld g [] (trace w ++ [Wrote (error_line e); Flushed])).
Proof.
  intros Hf Ha. destruct (iteration_streams rd w) as [g Hit].
  rewrite Ha, Hf in Hit. exists g. exact Hit.
Qed.

Lemma iteration_breaks (w : World) :
  exists g, iteration (Ok "") w = (Ok Break, put_globals g w).
Proof.
  destruct (iteration_streams (Ok "") w) as [g Hit].
  exists g. rewrite Hit. cbn. rewrite app_nil_r. reflexivity.
Qed.

Lemma skipn_own_length {A} (l evs : list A) : skipn (length l) (l ++ evs) = evs.
Proof. induction l as [|x l IH]; [reflexivity | exact IH]. Qed.

(** *** The claims about single requests *)

(** C3: for a well-formed request for which the engine returns at least
    one candidate, the bridge writes one line, the JSON object with exactly
    the five fields [name], [full_name], [type], [docstring] and
    [module_name], all read from the first candidate; the candidates after
    the first play no part. *)
Theorem first_candidate_only
    (line : string) (request source path ln column : value) (script : Script)
    (candidate : Name) (later : list Name)
    (v_name v_full_name v_type v_docstring v_module_name : value) (w : World) :
  faults w = [] ->
  line <> "" ->
  json_loads line = Ok request ->
  getitem request "source" = Ok source ->
  getitem request "path" = Ok path ->
  getitem request "line" = Ok ln ->
  getitem request "column" = Ok column ->
  jedi_Script source path = Ok script ->
  infer script ln column = Ok (candidate :: later) ->
  name candidate = Ok v_name ->
  full_name candidate = Ok v_full_name ->
  type candidate = Ok v_type ->
  docstring candidate = Ok v_docstring ->
  module_name candidate = Ok v_module_name ->
  exists w',
    iteration (Ok line) w = (Ok Continue, w') /\
    trace w' =
    trace w ++
    [Wrote (json_dumps (PyDict [("name", v_name);
                                ("full_name", v_full_name);
                                ("type", v_type);
                                ("docstring", v_docstring);
                                ("module_name", v_module_name)]) ++ newline);
     Flushed].
Proof.
  intros Hf Hline Hreq Hsrc Hpath Hln Hcol Hscript Hinfer Hn Hfn Hty Hdoc Hmod.
  apply String.eqb_neq in Hline.
  destruct (iteration_prints (Ok line)
              (PyDict [("name", v_name); ("full_name", v_full_name);
                       ("type", v_type); ("docstring", v_docstring);
                       ("module_name", v_module_name)]) w Hf) as [g Hit].
  - unfold answer, describe, and_then.
    rewrite Hline, Hreq, Hsrc, Hpath, Hln, Hcol, Hscript, Hinfer,
      Hn, Hfn, Hty, Hdoc, Hmod. reflexivity.
  - eexists. split; [exact Hit | reflexivity].
Qed.

(** C4: for a well-formed request for which the engine returns no
    candidate, the bridge writes exactly the line [null]: one line, not an
    empty object and not nothing. *)
Theorem no_candidate_prints_null
    (line : string) (request source path ln column : value) (script : Script)
    (w : World) :
  dumps_None_is_null J ->
  faults w = [] ->
  line <> "" ->
  json_loads line = Ok request ->
  getitem request "source" = Ok source ->
  getitem request "path" = Ok path ->
  getitem request "line" = Ok ln ->
  getitem request "column" = Ok column ->
  jedi_Script source path = Ok script ->
  infer script ln column = Ok [] ->
  exists w',
    iteration (Ok line) w = (Ok Continue, w') /\
    trace w' = trace w ++ [Wrote ("null" ++ newline); Flushed].
Proof.
  intros Hnull Hf Hline Hreq Hsrc Hpath Hln Hcol Hscript Hinfer.
  apply String.eqb_neq in Hline.
  destruct (iteration_prints (Ok line) PyNone w Hf) as [g Hit].
  - unfold answer, and_then.
    rewrite Hline, Hreq, Hsrc, Hpath, Hln, Hcol, Hscript, Hinfer. reflexivity.
  - eexists. split; [exact Hit | ].
    cbn [trace]. rewrite Hnull. reflexivity.
Qed.

Lemma count_newlines_app (a b : string) :
  count_newlines (a ++ b) = count_newlines a + count_newlines b.
Proof.
  induction a as [|c a IH]; cbn; [reflexivity|]. rewrite IH. lia.
Qed.

Lemma loop_step (rd : res string) (rest : list (res string)) (w w' : World) :
  iteration rd w = (Ok Continue, w') -> loop (rd :: rest) w = loop rest w'.
Proof. intros H. cbn [loop]. rewrite H. reflexivity. Qed.

(** A JSON object that lacks a field of a request makes the first lookup
    of a missing field raise [KeyError]. *)
Lemma missing_field_answer (line : string) (request : value) :
  line <> "" -> json_loads line = Ok request -> missing_field request ->
  exists key, In key required_fields /\ answer (Ok line) = Raised (KeyError key).
Proof.
  intros Hline Hreq (d & key & -> & Hin & Hnone).
  apply String.eqb_neq in Hline.
  unfold answer, and_then. rewrite Hline, Hreq. cbn [getitem].
  destruct (dict_get d "source") eqn:H1;
    [| exists "source"; split; [cbn; auto | reflexivity]].
  destruct (dict_get d "path") eqn:H2;
    [| exists "path"; split; [cbn; auto | reflexivity]].
  destruct (dict_get d "line") eqn:H3;
    [| exists "line"; split; [cbn; auto | reflexivity]].
  destruct (dict_get d "column") eqn:H4;
    [| exists "column"; split; [cbn; auto | reflexivity]].
  cbn in Hin. destruct Hin as [<-|[<-|[<-|[<-|[]]]]]; congruence.
Qed.

Lemma KeyError_has_text (key : string) : exc_str (KeyError key) <> "".
Proof. discriminate. Qed.

(** C2: for a malformed input line, one that is not JSON or that is a JSON
    object without one of the four fields of a request, the bridge writes
    exactly one line, the JSON object whose only field is [error] and whose
    value is a non-empty text, and goes on with the next request. *)
Theorem malformed_line_reports_error (line : string) (w : World) :
  decode_errors_have_text J ->
  single_line_dumps J ->
  faults w = [] ->
  malformed line ->
  exists message w',
    message <> "" /\
    iteration (Ok line) w = (Ok Continue, w') /\
    trace w' =
    trace w ++ [Wrote (json_dumps (PyDict [("error", PyStr message)]) ++ newline);
                Flushed] /\
    count_newlines (json_dumps (PyDict [("error", PyStr message)]) ++ newline) = 1 /\
    forall rest, loop (Ok line :: rest) w = loop rest w'.
Proof.
  intros Htext Hone Hf [Hline Hbad].
  assert (exists e, answer (Ok line) = Raised e /\ exc_str e <> "") as (e & Ha & He).
  { destruct Hbad as [[e Hraise] | (request & Hreq & Hmiss)].
    - exists e. split; [| exact (Htext _ _ Hraise)].
      apply String.eqb_neq in Hline.
      unfold answer, and_then. rewrite Hline, Hraise. reflexivity.
    - destruct (missing_field_answer line request Hline Hreq Hmiss) as (key & _ & Ha).
      exists (KeyError key). split; [exact Ha | apply KeyError_has_text]. }
  destruct (iteration_reports (Ok line) e w Hf Ha) as [g Hit].
  exists (exc_str e). eexists.
  split; [exact He|]. split; [exact Hit|]. split; [reflexivity|]. split.
  - rewrite count_newlines_app, Hone. reflexivity.
  - intros rest. apply loop_step. exact Hit.
Qed.


(** C9: the handler is outside the [try].  When the [try] suite has raised
    and the handler's own [write] or [flush] raises, nothing catches that
    exception: the loop ends there, the process dies with it, and the
    reads that remain are never made. *)
Theorem handler_failure_is_fatal
    (rd : res string) (rest : list (res string)) (w w1 : World)
    (e e' : PyException) (fs : list (option PyException)) :
  body rd w = (Raised e, w1) ->
  faults w1 = Some e' :: fs \/ faults w1 = None :: Some e' :: fs ->
  exists w2,
    loop (rd :: rest) w = (Crashed e', w2) /\
    faults w2 = fs /\
    exit_status (fst (loop (rd :: rest) w)) = Some 1%Z.
Proof.
  intros Hbody Hfault.
  cbn [loop]. unfold iteration, try_except. rewrite Hbody, handler_streams.
  destruct Hfault as [-> | ->]; cbn; eexists; (split; [reflexivity|]);
    split; reflexivity.
Qed.

(** *** The claims about runs of the loop *)

Lemma loop_app (before rest : list (res string)) :
  forall w, fst (loop before w) = Running ->
            loop (before ++ rest) w = loop rest (snd (loop before w)).
Proof.
  induction before as [|rd before IH]; intros w Hrun; [reflexivity|].
  cbn [app loop] in *.
  destruct (iteration rd w) as [[[|]|e] w']; cbn in Hrun; try discriminate.
  apply IH. exact Hrun.
Qed.

Lemma emitted_streams (rd : res string) (w : World) :
  emitted rd w = snd (stream_effect (answer rd) (faults w)).
Proof.
  unfold emitted. destruct (iteration_streams rd w) as [g ->].
  destruct (stream_effect (answer rd) (faults w)) as [[r fs] evs]; cbn.
  apply skipn_own_length.
Qed.

Lemma emitted_by_loop_streams (reads : list (res string)) (w : World) :
  emitted_by_loop reads w = snd (run_streams reads (faults w)).
Proof.
  unfold emitted_by_loop. destruct (loop_streams reads w) as [g ->].
  destruct (run_streams reads (faults w)) as [[st fs] evs]; cbn.
  apply skipn_own_length.
Qed.

Lemma stream_effect_fault_free (rd : res string) :
  is_eof rd = false ->
  stream_effect (answer rd) [] = (Ok Continue, [], [Wrote (response_line rd); Flushed]).
Proof.
  intros Hrd. unfold response_line, stream_effect.
  destruct (answer rd) as [[v|]|e] eqn:Ha; try reflexivity.
  apply answer_eof in Ha. subst rd. discriminate.
Qed.

Lemma run_streams_fault_free (reads : list (res string)) :
  Forall (fun rd => is_eof rd = false) reads ->
  run_streams reads [] =
  (Running, [], flat_map (fun rd => [Wrote (response_line rd); Flushed]) reads).
Proof.
  induction 1 as [|rd reads Hrd _ IH]; [reflexivity|].
  cbn [run_streams flat_map]. rewrite (stream_effect_fault_free rd Hrd), IH.
  reflexivity.
Qed.

Lemma emitted_fault_free (rd : res string) (w : World) :
  faults w = [] -> is_eof rd = false ->
  emitted rd w = [Wrote (response_line rd); Flushed].
Proof.
  intros Hf Hrd. rewrite emitted_streams, Hf, stream_effect_fault_free by exact Hrd.
  reflexivity.
Qed.

(** A run on a working [sys.stdout], before the end of the stream. *)
Lemma loop_fault_free (reads : list (res string)) (w : World) :
  faults w = [] ->
  Forall (fun rd => is_eof rd = false) reads ->
  exists g,
    loop reads w =
    (Running,
     mkWorld g []
             (trace w ++ flat_map (fun rd => [Wrote (response_line rd); Flushed]) reads)).
Proof.
  intros Hf Hreads. destruct (loop_streams reads w) as [g Hl].
  rewrite Hf, (run_streams_fault_free reads Hreads) in Hl. exists g. exact Hl.
Qed.

Lemma response_line_shape (rd : res string) :
  single_line_dumps J -> is_eof rd = false ->
  exists text : string, response_line rd = (text ++ newline)%string /\ count_newlines text = 0.
Proof.
  intros Hone Hrd. unfold response_line.
  destruct (answer rd) as [[v|]|e] eqn:Ha.
  - exists (json_dumps v). split; [reflexivity | apply Hone].
  - apply answer_eof in Ha. subst rd. discriminate.
  - exists (json_dumps (error_object e)). split; [reflexivity | apply Hone].
Qed.

Lemma written_lines (reads : list (res string)) :
  single_line_dumps J ->
  Forall (fun rd => is_eof rd = false) reads ->
  count_newlines
    (written (flat_map (fun rd => [Wrote (response_line rd); Flushed]) reads))
  = length reads.
Proof.
  intros Hone. induction 1 as [|rd reads Hrd _ IH]; [reflexivity|].
  cbn [flat_map app written length].
  destruct (response_line_shape rd Hone Hrd) as (text & -> & Htext).
  rewrite !count_newlines_app, Htext, IH. reflexivity.
Qed.

Lemma nothing_pending (reads : list (res string)) :
  pending "" (flat_map (fun rd => [Wrote (response_line rd); Flushed]) reads) = "".
Proof. induction reads as [|rd reads IH]; [reflexivity | exact IH]. Qed.

Lemma flat_map_emitted (reads : list (res string)) :
  Forall (fun rd => is_eof rd = false) reads ->
  flat_map (fun rd => [Wrote (response_line rd); Flushed]) reads =
  flat_map (fun rd => emitted rd (start [])) reads.
Proof.
  induction 1 as [|rd reads Hrd _ IH]; [reflexivity|].
  cbn [flat_map]. rewrite IH, (emitted_fault_free rd (start [])) by auto.
  reflexivity.
Qed.

(** C5: on a working [sys.stdout], for every sequence of reads before the
    end of the stream the loop is still running afterwards and has written
    exactly one line per read, in the order of the reads: the output is the
    concatenation, read by read, of what the bridge answers to that read
    alone, each answer being one [write] of one line followed at once by
    its [flush], so that nothing is left in the buffer. *)
Theorem one_flushed_line_per_read (reads : list (res string)) (w : World) :
  single_line_dumps J ->
  faults w = [] ->
  Forall (fun rd => is_eof rd = false) reads ->
  fst (loop reads w) = Running /\
  emitted_by_loop reads w = flat_map (fun rd => emitted rd (start [])) reads /\
  Forall (fun rd => exists text : string,
              emitted rd (start []) = [Wrote (text ++ newline)%string; Flushed] /\
              count_newlines text = 0) reads /\
  count_newlines (written (emitted_by_loop reads w)) = length reads /\
  pending "" (emitted_by_loop reads w) = "".
Proof.
  intros Hone Hf Hreads.
  destruct (loop_fault_free reads w Hf Hreads) as [g Hl].
  assert (Hem : emitted_by_loop reads w =
                flat_map (fun rd => [Wrote (response_line rd); Flushed]) reads).
  { unfold emitted_by_loop. rewrite Hl. apply skipn_own_length. }
  split; [rewrite Hl; reflexivity|].
  split; [rewrite Hem; apply flat_map_emitted; exact Hreads|].
  split.
  - apply Forall_forall. intros rd Hin.
    pose proof (proj1 (Forall_forall _ _) Hreads rd Hin) as Hrd. cbn beta in Hrd.
    destruct (response_line_shape rd Hone Hrd) as (text & Hshape & Htext).
    exists text. split; [|exact Htext].
    rewrite emitted_fault_free by auto. rewrite Hshape. reflexivity.
  - rewrite Hem. split; [apply written_lines; assumption | apply nothing_pending].
Qed.

(** C10: with the engine and the JSON library fixed, the answer to a read
    does not depend on where the read comes in a run or on what came
    before it.  In two runs, whatever their earlier reads and whatever the
    stores and the output they started from, the same read adds the same
    events to the output, namely the ones it produces in a process that
    has just started. *)
Theorem response_is_history_free
    (before1 before2 : list (res string)) (rd : res string) (w1 w2 : World) :
  faults w1 = [] ->
  faults w2 = [] ->
  Forall (fun r => is_eof r = false) before1 ->
  Forall (fun r => is_eof r = false) before2 ->
  emitted_by_loop (before1 ++ [rd]) w1 =
    emitted_by_loop before1 w1 ++ emitted rd (start []) /\
  emitted_by_loop (before2 ++ [rd]) w2 =
    emitted_by_loop before2 w2 ++ emitted rd (start []).
Proof.
  assert (Hone : forall before w,
             faults w = [] -> Forall (fun r => is_eof r = false) before ->
             emitted_by_loop (before ++ [rd]) w =
             emitted_by_loop before w ++ emitted rd (start [])).
  { intros before w Hf Hb.
    destruct (loop_fault_free before w Hf Hb) as [g Hl].
    unfold emitted_by_loop at 1.
    rewrite loop_app by (rewrite Hl; reflexivity). rewrite Hl. cbn [snd loop].
    destruct (iteration_streams rd
                (mkWorld g [] (trace w ++ flat_map (fun rd0 =>
                   [Wrote (response_line rd0); Flushed]) before)))
      as [g' Hit].
    rewrite Hit. cbn [faults trace].
    rewrite (emitted_streams rd (start [])). cbn [faults start].
    unfold emitted_by_loop. rewrite Hl. cbn [snd trace].
    rewrite skipn_own_length.
    destruct (stream_effect (answer rd) []) as [[[[|]|e] fs] evs]; cbn [snd trace];
      rewrite <- app_assoc; apply skipn_own_length. }
  intros Hf1 Hf2 Hb1 Hb2. split; apply Hone; assumption.
Qed.

(** On a working [sys.stdout] the [try] suite raises exactly when
    [answer] does. *)
Lemma body_raises_answer (rd : res string) (w w1 : World) (e : PyException) :
  faults w = [] -> body rd w = (Raised e, w1) -> answer rd = Raised e.
Proof.
  intros Hf Hbody. destruct (body_answer rd w) as [g Hb].
  rewrite Hbody in Hb.
  destruct (answer rd) as [[v|]|e0]; try discriminate.
  - rewrite print_streams in Hb. cbn [put_globals faults] in Hb.
    rewrite Hf in Hb. discriminate.
  - congruence.
Qed.

(** C1: on a working [sys.stdout], when the processing of a read raises,
    the exception is caught where the iteration ends and becomes the error
    line; the loop goes on, and the reads that follow are handled as in
    the run in which the failing read was never made: same status at the
    end, same output after the error line. *)
Theorem failing_request_is_isolated
    (rd : res string) (rest : list (res string)) (w w1 : World) (e : PyException) :
  faults w = [] ->
  body rd w = (Raised e, w1) ->
  (exists w2,
      iteration rd w = (Ok Continue, w2) /\
      trace w2 = trace w ++ [Wrote (error_line e); Flushed] /\
      loop (rd :: rest) w = loop rest w2) /\
  fst (loop (rd :: rest) w) = fst (loop rest w) /\
  emitted_by_loop (rd :: rest) w =
    [Wrote (error_line e); Flushed] ++ emitted_by_loop rest w.
Proof.
  intros Hf Hbody.
  pose proof (body_raises_answer rd w w1 e Hf Hbody) as Ha.
  destruct (iteration_reports rd e w Hf Ha) as [g Hit].
  split.
  { eexists. split; [exact Hit|]. split; [reflexivity|].
    apply loop_step. exact Hit. }
  unfold emitted_by_loop.
  rewrite (loop_step rd rest w _ Hit).
  destruct (loop_streams rest
              (mkWorld g [] (trace w ++ [Wrote (error_line e); Flushed])))
    as [g1 ->].
  destruct (loop_streams rest w) as [g2 ->].
  cbn [faults trace]. rewrite Hf.
  destruct (run_streams rest []) as [[st fs] evs]. cbn [fst snd trace].
  split; [reflexivity|].
  rewrite <- app_assoc, !skipn_own_length. reflexivity.
Qed.

Lemma iteration_break_is_eof (rd : res string) (w w' : World) :
  iteration rd w = (Ok Break, w') -> rd = Ok "" /\ trace w' = trace w.
Proof.
  intros Hit. destruct (iteration_streams rd w) as [g Hs]. rewrite Hit in Hs.
  unfold stream_effect, out_line, out_op in Hs.
  destruct (answer rd) as [[v|]|e] eqn:Ha.
  - destruct (faults w) as [|[e1|] [|[e2|] [|[e3|] [|[e4|] fs]]]]; discriminate.
  - apply answer_eof in Ha. injection Hs as ->. cbn [trace].
    rewrite app_nil_r. auto.
  - destruct (faults w) as [|[e1|] [|[e2|] fs]]; discriminate.
Qed.

Lemma run_streams_never_crashes (reads : list (res string)) :
  exists st evs,
    run_streams reads [] = (st, [], evs) /\ (st = Running \/ st = Exited).
Proof.
  induction reads as [|rd rest (st & evs & IH & Hst)]; cbn [run_streams].
  - exists Running, []. auto.
  - unfold stream_effect. destruct (answer rd) as [[v|]|e].
    + rewrite out_line_fault_free, IH. eauto.
    + exists Exited, []. auto.
    + rewrite out_line_fault_free, IH. eauto.
Qed.

(** C6: the loop leaves with exit status 0 exactly when one of its reads
    returns the empty string.  That read is one the loop gets to, the
    loop being still running after the reads before it, and it adds
    nothing to the output.  On a working [sys.stdout] there is no other way
    out: the process is never killed by an exception. *)
Theorem exits_exactly_at_end_of_stream (reads : list (res string)) (w : World) :
  (exit_status (fst (loop reads w)) = Some 0%Z <->
   exists before after,
     reads = before ++ Ok "" :: after /\
     fst (loop before w) = Running /\
     trace (snd (loop reads w)) = trace (snd (loop before w))) /\
  (faults w = [] ->
   fst (loop reads w) = Running \/ fst (loop reads w) = Exited).
Proof.
  split; [split|].
  - revert w. induction reads as [|rd rest IH]; intros w Hexit; [discriminate|].
    cbn [loop] in *.
    destruct (iteration rd w) as [[[|]|e] w'] eqn:Hit.
    + destruct (IH w' Hexit) as (before & after & -> & Hrun & Htr).
      exists (rd :: before), after. cbn [app loop]. rewrite Hit. auto.
    + destruct (iteration_break_is_eof rd w w' Hit) as [-> Htr].
      exists [], rest. cbn. auto.
    + discriminate.
  - intros (before & after & -> & Hrun & _).
    rewrite loop_app by exact Hrun. cbn [loop].
    destruct (iteration_breaks (snd (loop before w))) as [g ->]. reflexivity.
  - intros Hf. destruct (loop_streams reads w) as [g ->]. rewrite Hf.
    destruct (run_streams_never_crashes reads) as (st & evs & -> & Hst).
    exact Hst.
Qed.

End BridgeFacts.

(** ** More of what the loop does *)
Section BridgeEdges.
Context {J : Json} {E : Jedi}.

Lemma answer_decoded (line : string) (request : value) :
  line <> "" -> json_loads line = Ok request ->
  answer (Ok line) =
  and_then (getitem request "source") (fun source =>
  and_then (getitem request "path") (fun path =>
  and_then (getitem request "line") (fun ln =>
  and_then (getitem request "column") (fun column =>
  and_then (jedi_Script source path) (fun script =>
  and_then (infer script ln column) (fun inference =>
  match inference with
  | candidate :: _ => and_then (describe candidate) (fun v => Ok (Some v))
  | [] => Ok (Some PyNone)
  end)))))).
Proof.
  intros Hline Hreq. apply String.eqb_neq in Hline.
  unfold answer. cbn [and_then]. rewrite Hline, Hreq. reflexivity.
Qed.



(** X3: the answer depends on the input text only through the four fields of
    the decoded object.  Two lines that decode to values with the same
    [source], [path], [line] and [column] lookups (other fields, the order of
    the fields and the spelling of the text may differ) make the iteration
    end the same way and write the same events, under any schedule of
    failures of [sys.stdout]. *)
Theorem only_the_four_fields_matter
    (line1 line2 : string) (request1 request2 : value) (w1 w2 : World) :
  line1 <> "" ->
  line2 <> "" ->
  json_loads line1 = Ok request1 ->
  json_loads line2 = Ok request2 ->
  (forall key, In key required_fields -> getitem request1 key = getitem request2 key) ->
  faults w1 = faults w2 ->
  fst (iteration (Ok line1) w1) = fst (iteration (Ok line2) w2) /\
  emitted (Ok line1) w1 = emitted (Ok line2) w2.
Proof.
  intros H1 H2 Hreq1 Hreq2 Hsame Hf.
  assert (Ha : answer (Ok line1) = answer (Ok line2)).
  { rewrite (answer_decoded line1 _ H1 Hreq1), (answer_decoded line2 _ H2 Hreq2).
    rewrite !Hsame by (cbn; auto). reflexivity. }
  rewrite !emitted_streams, Ha, Hf. split; [|reflexivity].
  destruct (iteration_streams (Ok line1) w1) as [g1 ->].
  destruct (iteration_streams (Ok line2) w2) as [g2 ->].
  rewrite Ha, Hf.
  destruct (stream_effect (answer (Ok line2)) (faults w2)) as [[r fs] evs].
  reflexivity.
Qed.



(** *** Failures of the streams *)









Lemma stream_effect_sound
    (a : res (option value)) (fs fs' : list (option PyException))
    (r : res Ctl) (evs : list Event) :
  stream_effect a fs = (r, fs', evs) ->
  (forall e, r = Raised e -> In (Some e) fs) /\ (forall x, In x fs' -> In x fs).
Proof.
  unfold stream_effect, out_line, out_op.
  destruct a as [[v|]|e0];
    destruct fs as [|[e1|] [|[e2|] [|[e3|] [|[e4|] fs]]]];
    cbn; intros [= <- <- <-];
    (split; [intros e He; try discriminate He; injection He as <-; cbn; auto 10
            | intros x; cbn; tauto]).
Qed.

Lemma run_streams_crash (reads : list (res string)) :
  forall fs fs' evs e,
    run_streams reads fs = (Crashed e, fs', evs) -> In (Some e) fs.
Proof.
  induction reads as [|rd rest IH]; intros fs fs' evs e Hrun; cbn [run_streams] in Hrun.
  - discriminate.
  - destruct (stream_effect (answer rd) fs) as [[r fs1] ev1] eqn:Hs.
    apply stream_effect_sound in Hs as [Hr Hsub].
    destruct r as [[|]|e0].
    + destruct (run_streams rest fs1) as [[st fs2] ev2] eqn:Hrest.
      injection Hrun as -> _ _. apply Hsub. exact (IH _ _ _ _ Hrest).
    + discriminate.
    + injection Hrun as -> _ _. apply Hr. reflexivity.
Qed.

(** X11: nothing a request contains and nothing [json] or jedi does can
    kill the process.  If the loop dies of an exception, that exception is
    one that [sys.stdout] raised. *)
Theorem only_stdout_can_crash
    (reads : list (res string)) (w : World) (e : PyException) :
  fst (loop reads w) = Crashed e -> In (Some e) (faults w).
Proof.
  intros Hcrash. destruct (loop_streams reads w) as [g Hl]. rewrite Hl in Hcrash.
  destruct (run_streams reads (faults w)) as [[st fs] evs] eqn:Hrun.
  cbn in Hcrash. subst st. exact (run_streams_crash _ _ _ _ _ Hrun).
Qed.

Lemma answer_shape (rd : res string) (v : value) :
  answer rd = Ok (Some v) ->
  v = PyNone \/
  exists v_name v_full_name v_type v_docstring v_module_name,
    v = PyDict [("name", v_name); ("full_name", v_full_name); ("type", v_type);
                ("docstring", v_docstring); ("module_name", v_module_name)].
Proof.
  unfold answer, and_then. intros Ha.
  destruct rd as [s|e]; [|discriminate].
  destruct (s =? ""); [discriminate|].
  destruct (json_loads s) as [request|]; [|discriminate].
  destruct (getitem request "source") as [source|]; [|discriminate].
  destruct (getitem request "path") as [path|]; [|discriminate].
  destruct (getitem request "line") as [ln|]; [|discriminate].
  destruct (getitem request "column") as [column|]; [|discriminate].
  destruct (jedi_Script source path) as [script|]; [|discriminate].
  destruct (infer script ln column) as [[|candidate later]|]; [| |discriminate].
  - injection Ha as <-. left. reflexivity.
  - unfold describe, and_then in Ha.
    destruct (name candidate); [|discriminate].
    destruct (full_name candidate); [|discriminate].
    destruct (type candidate); [|discriminate].
    destruct (docstring candidate); [|discriminate].
    destruct (module_name candidate); [|discriminate].
    injection Ha as <-. right. repeat eexists.
Qed.

(** X12: on a working [sys.stdout], every read that is not the end of the
    stream is answered by one flushed line, and the object on that line has
    one of three shapes and no other: [null], the object with the five
    fields [name], [full_name], [type], [docstring], [module_name], or the
    object with the single field [error] holding a text. *)
Theorem three_response_shapes (rd : res string) (w : World) :
  faults w = [] ->
  is_eof rd = false ->
  exists v,
    emitted rd w = [Wrote (json_dumps v ++ newline); Flushed] /\
    (v = PyNone \/
     (exists v_name v_full_name v_type v_docstring v_module_name,
         v = PyDict [("name", v_name); ("full_name", v_full_name); ("type", v_type);
                     ("docstring", v_docstring); ("module_name", v_module_name)]) \/
     (exists message, v = PyDict [("error", PyStr message)])).
Proof.
  intros Hf Hrd. rewrite (emitted_fault_free rd w Hf Hrd). unfold response_line.
  destruct (answer rd) as [[v|]|e] eqn:Ha.
  - exists v. split; [reflexivity|].
    destruct (answer_shape rd v Ha) as [->|Hfive]; auto.
  - apply answer_eof in Ha. subst rd. discriminate.
  - exists (error_object e). split; [reflexivity|].
    right. right. exists (exc_str e). reflexivity.
Qed.
End BridgeEdges.

(** ** The small codec has the properties the bridge relies on *)

Lemma uint_single_line (d : Decimal.uint) :
  count_newlines (NilEmpty.string_of_uint d) = 0.
Proof. induction d; cbn; auto. Qed.

Lemma dec_Z_single_line (z : Z) : count_newlines (MiniJson.dec_Z z) = 0.
Proof.
  unfold MiniJson.dec_Z, NilZero.string_of_int, NilZero.string_of_uint.
  destruct (Z.to_int z) as [d|d]; destruct d; cbn [count_newlines];
    try reflexivity; cbn; apply uint_single_line.
Qed.

Lemma escape_char_single_line (c : ascii) :
  count_newlines (MiniJson.escape_char c) = 0.
Proof. destruct c as [[|] [|] [|] [|] [|] [|] [|] [|]]; reflexivity. Qed.

Lemma escape_single_line (s : string) : count_newlines (MiniJson.escape s) = 0.
Proof.
  induction s as [|c s IH]; [reflexivity|].
  cbn [MiniJson.escape]. rewrite count_newlines_app, escape_char_single_line, IH.
  reflexivity.
Qed.

Lemma quote_single_line (s : string) : count_newlines (MiniJson.quote s) = 0.
Proof.
  unfold MiniJson.quote. cbn [count_newlines].
  rewrite count_newlines_app, escape_single_line. reflexivity.
Qed.

Lemma join_single_line (sep : string) (l : list string) :
  count_newlines sep = 0 ->
  Forall (fun x => count_newlines x = 0) l ->
  count_newlines (MiniJson.join sep l) = 0.
Proof.
  intros Hsep. induction 1 as [|x l Hx Hl IH]; [reflexivity|].
  destruct l as [|y l]; [exact Hx|].
  change (MiniJson.join sep (x :: y :: l))
    with (x ++ sep ++ MiniJson.join sep (y :: l))%string.
  rewrite !count_newlines_app, Hx, Hsep, IH. reflexivity.
Qed.

Lemma dumps_single_line (v : value) : count_newlines (MiniJson.dumps v) = 0.
Proof.
  induction v as [|b|n|m e|s|l IH|d IH] using value_ind.
  - reflexivity.
  - destruct b; reflexivity.
  - apply dec_Z_single_line.
  - cbn [MiniJson.dumps].
    rewrite !count_newlines_app, !dec_Z_single_line. reflexivity.
  - apply quote_single_line.
  - cbn [MiniJson.dumps]. cbn [append count_newlines].
    rewrite count_newlines_app, join_single_line; [reflexivity | reflexivity |].
    induction IH; cbn [map]; constructor; assumption.
  - cbn [MiniJson.dumps]. cbn [append count_newlines].
    rewrite count_newlines_app, join_single_line; [reflexivity | reflexivity |].
    induction IH as [|kv d Hkv _ IHd]; cbn [map]; constructor; [|exact IHd].
    rewrite count_newlines_app, quote_single_line. cbn [count_newlines].
    rewrite Hkv. reflexivity.
Qed.

Lemma codec_single_line : single_line_dumps MiniJson.codec.
Proof. exact dumps_single_line. Qed.

Lemma codec_None_is_null : dumps_None_is_null MiniJson.codec.
Proof. reflexivity. Qed.

Lemma JSONDecodeError_has_text (k : MiniJson.jerr) (pos : nat) (doc : string) :
  exc_str (MiniJson.JSONDecodeError k pos doc) <> "".
Proof.
  unfold MiniJson.JSONDecodeError.
  destruct (MiniJson.line_col doc pos 1 1) as [ln col].
  destruct k; cbn; discriminate.
Qed.

Lemma codec_errors_have_text : decode_errors_have_text MiniJson.codec.
Proof.
  intros doc e. cbn [json_loads MiniJson.codec]. unfold MiniJson.loads.
  destruct (MiniJson.skip_ws doc 0) as [s0 p0].
  destruct (MiniJson.scan_value _ s0 p0) as [[k pos]|[[v rest] p]].
  - intros [= <-]. apply JSONDecodeError_has_text.
  - destruct (MiniJson.skip_ws rest p) as [rest' p'].
    destruct rest'; [discriminate|].
    intros [= <-]. apply JSONDecodeError_has_text.
Qed.

(** ** The theorems on sample traffic

    The bridge run with the small codec and the stand-in engine. *)
Import MiniJson StubJedi Samples.

(** The scenario of the protocol description: a hover on [os] is answered
    with the five fields of the module. *)
Example hover_os_response :
  loop [Ok hover_os] (start []) =
  (Running,
   mkWorld (mkGlobals (Some (PyInt 2))
                      (Some (PyDict [("source", PyStr known_source);
                                     ("path", PyStr "a.py");
                                     ("line", PyInt 2); ("column", PyInt 0)]))
                      (Some (PyStr known_source)) (Some (PyStr "a.py"))
                      (Some (PyInt 0)) (Some (known_source, PyStr "a.py"))
                      (Some [os_module])
                      (Some (PyDict [("name", PyStr "os"); ("full_name", PyStr "os");
                                     ("type", PyStr "module");
                                     ("docstring", PyStr "OS routines for NT or Posix depending on what system we're on.");
                                     ("module_name", PyStr "os")])))
           []
           [Wrote (dumps (PyDict [("name", PyStr "os"); ("full_name", PyStr "os");
                                  ("type", PyStr "module");
                                  ("docstring", PyStr "OS routines for NT or Posix depending on what system we're on.");
                                  ("module_name", PyStr "os")]) ++ newline);
            Flushed]).
Proof. vm_compute. reflexivity. Qed.

(** A name whose [docstring()] raises: result construction fails and the
    request is answered with the error. *)
Example undocumented_response :
  emitted (Ok hover_undocumented) (start []) =
  [Wrote (error_line (mkExc "OSError" "source not available")); Flushed].
Proof. vm_compute. reflexivity. Qed.

(** A failing [flush] in the [try] suite: the line has been written, and the
    handler writes the error line after it. *)
Example flush_failure_in_try :
  loop [Ok hover_blank] (start [None; Some BrokenPipeError]) =
  (Running,
   mkWorld (mkGlobals (Some (PyInt 1)) (Some blank_request)
                      (Some (PyStr known_source)) (Some (PyStr "a.py"))
                      (Some (PyInt 0)) (Some (known_source, PyStr "a.py"))
                      (Some []) (Some PyNone))
           []
           [Wrote ("null" ++ newline); Wrote (error_line BrokenPipeError); Flushed]).
Proof. vm_compute. reflexivity. Qed.

(** The two kinds of malformed line and the messages they are answered
    with: the decoder's, and the [repr] of the first missing key. *)
Example not_json_response :
  emitted (Ok not_json) (start []) =
  [Wrote (dumps (PyDict [("error", PyStr "Expecting value: line 1 column 1 (char 0)")])
          ++ newline);
   Flushed].
Proof. vm_compute. reflexivity. Qed.

Example no_source_response :
  emitted (Ok no_source) (start []) =
  [Wrote (dumps (PyDict [("error", PyStr "'source'")]) ++ newline); Flushed].
Proof. vm_compute. reflexivity. Qed.

Lemma failing_request_is_isolated_witness :
  (exists w2,
      iteration (Ok not_json) (start []) = (Ok Continue, w2) /\
      trace w2 = trace (start []) ++
                 [Wrote (error_line (JSONDecodeError ExpectingValue 0 not_json)); Flushed] /\
      loop [Ok not_json; Ok hover_os] (start []) = loop [Ok hover_os] w2) /\
  fst (loop [Ok not_json; Ok hover_os] (start [])) = fst (loop [Ok hover_os] (start [])) /\
  emitted_by_loop [Ok not_json; Ok hover_os] (start []) =
    [Wrote (error_line (JSONDecodeError ExpectingValue 0 not_json)); Flushed]
    ++ emitted_by_loop [Ok hover_os] (start []).
Proof.
  apply (failing_request_is_isolated (Ok not_json) [Ok hover_os] (start [])
           (snd (body (Ok not_json) (start [])))
           (JSONDecodeError ExpectingValue 0 not_json)).
  - reflexivity.
  - vm_compute. reflexivity.
Defined.

Lemma malformed_line_reports_error_witness :
  exists message w',
    message <> "" /\
    iteration (Ok no_source) (start []) = (Ok Continue, w') /\
    trace w' =
    trace (start []) ++
    [Wrote (json_dumps (PyDict [("error", PyStr message)]) ++ newline); Flushed] /\
    count_newlines (json_dumps (PyDict [("error", PyStr message)]) ++ newline) = 1 /\
    forall rest, loop (Ok no_source :: rest) (start []) = loop rest w'.
Proof.
  apply (malformed_line_reports_error no_source (start [])
           codec_errors_have_text codec_single_line).
  - reflexivity.
  - split; [discriminate|]. right. exists (PyDict []). split; [reflexivity|].
    exists [], "source". cbn. auto.
Defined.

Lemma first_candidate_only_witness :
  exists w',
    iteration (Ok hover_getcwd) (start []) = (Ok Continue, w') /\
    trace w' =
    trace (start []) ++
    [Wrote (json_dumps (PyDict [("name", PyStr "getcwd");
                                ("full_name", PyStr "os.getcwd");
                                ("type", PyStr "function");
                                ("docstring", PyStr "getcwd() -> str");
                                ("module_name", PyStr "os")]) ++ newline);
     Flushed].
Proof.
  apply (first_candidate_only (J:=codec) (E:=engine) hover_getcwd getcwd_request
           (PyStr known_source) (PyStr "a.py") (PyInt 2) (PyInt 3)
           (known_source, PyStr "a.py") getcwd_function [getcwd_stub]);
    try reflexivity.
  discriminate.
Defined.

Lemma no_candidate_prints_null_witness :
  exists w',
    iteration (Ok hover_blank) (start []) = (Ok Continue, w') /\
    trace w' = trace (start []) ++ [Wrote ("null" ++ newline); Flushed].
Proof.
  apply (no_candidate_prints_null (J:=codec) (E:=engine) hover_blank blank_request
           (PyStr known_source) (PyStr "a.py") (PyInt 1) (PyInt 0)
           (known_source, PyStr "a.py") (start []) codec_None_is_null);
    try reflexivity.
  discriminate.
Defined.

Lemma one_flushed_line_per_read_witness :
  let reads := [Ok hover_os; Ok not_json; Raised UnicodeDecodeError; Ok newline;
                Ok hover_blank] in
  fst (loop reads (start [])) = Running /\
  emitted_by_loop reads (start []) = flat_map (fun rd => emitted rd (start [])) reads /\
  Forall (fun rd => exists text : string,
              emitted rd (start []) = [Wrote (text ++ newline)%string; Flushed] /\
              count_newlines text = 0) reads /\
  count_newlines (written (emitted_by_loop reads (start []))) = length reads /\
  pending "" (emitted_by_loop reads (start [])) = "".
Proof.
  apply (one_flushed_line_per_read _ (start []) codec_single_line).
  - reflexivity.
  - repeat constructor.
Defined.


(** What [json.loads] says of the blank line, and the line the bridge
    answers with. *)
Example blank_line_response :
  json_loads newline = Raised (mkExc "JSONDecodeError" "Expecting value: line 2 column 1 (char 1)") /\
  loop [Ok newline] (start []) =
  (Running,
   mkWorld (mkGlobals (Some (PyStr newline)) None None None None None None None) []
           [Wrote (dumps (PyDict [("error", PyStr "Expecting value: line 2 column 1 (char 1)")])
                   ++ newline);
            Flushed]).
Proof. split; vm_compute; reflexivity. Qed.

Lemma exits_exactly_at_end_of_stream_witness :
  exit_status (fst (loop [Ok hover_os; Ok ""; Ok hover_os] (start []))) = Some 0%Z /\
  (fst (loop [Ok hover_os; Ok not_json] (start [])) = Running \/
   fst (loop [Ok hover_os; Ok not_json] (start [])) = Exited).
Proof.
  split.
  - apply (proj1 (exits_exactly_at_end_of_stream
                    [Ok hover_os; Ok ""; Ok hover_os] (start []))).
    exists [Ok hover_os], [Ok hover_os]. repeat split.
  - apply (proj2 (exits_exactly_at_end_of_stream
                    [Ok hover_os; Ok not_json] (start []))).
    reflexivity.
Defined.

(** The read after the end of the stream is never made: the output is that
    of the first request alone. *)
Example nothing_after_end_of_stream :
  trace (snd (loop [Ok hover_os; Ok ""; Ok hover_getcwd] (start []))) =
  trace (snd (loop [Ok hover_os] (start []))).
Proof. vm_compute. reflexivity. Qed.

Lemma handler_failure_is_fatal_witness :
  exists w2,
    loop [Ok not_json; Ok hover_os] (start [Some BrokenPipeError]) =
      (Crashed BrokenPipeError, w2) /\
    faults w2 = [] /\
    exit_status (fst (loop [Ok not_json; Ok hover_os] (start [Some BrokenPipeError])))
    = Some 1%Z.
Proof.
  apply (handler_failure_is_fatal (Ok not_json) [Ok hover_os]
           (start [Some BrokenPipeError])
           (snd (body (Ok not_json) (start [Some BrokenPipeError])))
           (JSONDecodeError ExpectingValue 0 not_json) BrokenPipeError []).
  - vm_compute. reflexivity.
  - left. reflexivity.
Defined.

Lemma response_is_history_free_witness :
  emitted_by_loop ([] ++ [Ok hover_os]) (start []) =
    emitted_by_loop [] (start []) ++ emitted (Ok hover_os) (start []) /\
  emitted_by_loop ([Ok not_json; Ok hover_getcwd] ++ [Ok hover_os]) (start []) =
    emitted_by_loop [Ok not_json; Ok hover_getcwd] (start []) ++
    emitted (Ok hover_os) (start []).
Proof.
  apply (response_is_history_free [] [Ok not_json; Ok hover_getcwd] (Ok hover_os)
           (start []) (start [])); try reflexivity; repeat constructor.
Defined.


(** ** More of the loop on sample traffic *)
Import MoreSamples.

(** What a [null] request, one with two fields missing and one past the end
    of the source are answered with. *)
Example null_line_response :
  emitted (Ok null_line) (start []) =
  [Wrote (dumps (PyDict [("error", PyStr "'NoneType' object is not subscriptable")])
          ++ newline);
   Flushed].
Proof. vm_compute. reflexivity. Qed.

Example partial_line_response :
  emitted (Ok partial_line) (start []) =
  [Wrote (dumps (PyDict [("error", PyStr "'path'")]) ++ newline); Flushed].
Proof. vm_compute. reflexivity. Qed.

Example out_of_range_response :
  emitted (Ok hover_out_of_range) (start []) =
  [Wrote (dumps (PyDict [("error", PyStr "`line` parameter is not in a valid range.")])
          ++ newline);
   Flushed].
Proof. vm_compute. reflexivity. Qed.



Lemma only_the_four_fields_matter_witness :
  fst (iteration (Ok hover_os) (start [])) = fst (iteration (Ok reordered_line) (start [])) /\
  emitted (Ok hover_os) (start []) = emitted (Ok reordered_line) (start []).
Proof.
  apply (only_the_four_fields_matter (J:=codec) (E:=engine) hover_os reordered_line
           os_request reordered_request (start []) (start []));
    [discriminate | discriminate | reflexivity | reflexivity | | reflexivity].
  intros key [<-|[<-|[<-|[<-|[]]]]]; reflexivity.
Defined.






Lemma only_stdout_can_crash_witness :
  In (Some BrokenPipeError) (faults (start [None; None; Some BrokenPipeError])).
Proof.
  apply (only_stdout_can_crash (J:=codec) (E:=engine)
           [Ok hover_os; Ok not_json; Ok hover_os]
           (start [None; None; Some BrokenPipeError]) BrokenPipeError).
  reflexivity.
Defined.

Lemma three_response_shapes_witness :
  exists v,
    emitted (Ok hover_os) (start []) = [Wrote (json_dumps v ++ newline); Flushed] /\
    (v = PyNone \/
     (exists v_name v_full_name v_type v_docstring v_module_name,
         v = PyDict [("name", v_name); ("full_name", v_full_name); ("type", v_type);
                     ("docstring", v_docstring); ("module_name", v_module_name)]) \/
     (exists message, v = PyDict [("error", PyStr message)])).
Proof.
  apply (three_response_shapes (J:=codec) (E:=engine) (Ok hover_os) (start []));
    reflexivity.
Defined.
